(** * next-auth with Azure AD on the Next.js App Router

    A shallow embedding of the TypeScript sources of the repository
    (the request middleware and its route matcher, the NextAuth options
    with the session callback, the server-side session helper and the
    [UserProfile] client component), followed by the properties that the
    specification states about them.

    Calls into the authentication library and into the framework
    ([getToken], [getServerSession], [useSession]) are not part of the
    repository; they appear as section variables or as arguments. *)

From stdpp Require Import gmap strings list.
From Stdlib Require Import Ascii String Bool.

Local Open Scope string_scope.

(** ** JavaScript values used by the sources *)

Module Js.

(** A property typed [string | null | undefined]. *)
Inductive maybe_string : Type :=
| undefined
| null
| str (s : string).

(** ToBoolean on a string: only the empty string is falsy. *)
Definition truthy_string (s : string) : bool :=
  match s with
  | EmptyString => false
  | String _ _ => true
  end.

(** ToBoolean on [string | undefined]. *)
Definition truthy (v : option string) : bool :=
  match v with
  | Some s => truthy_string s
  | None => false
  end.

(** [v || d] where [v : string | undefined] and [d : string]. *)
Definition or_else (v : option string) (d : string) : string :=
  match v with
  | Some s => if truthy_string s then s else d
  | None => d
  end.

End Js.

(** ** Regular expressions of the route matcher

    The fragment of JavaScript regular expressions that the matcher in
    [config] and the regular expression the framework compiles it to
    use: literal characters, [.], character classes, concatenation,
    alternation, the quantifiers [*], [?] and [{1,}], capturing and
    non-capturing groups and negative lookahead. *)

Module Regex.

Inductive regex : Type :=
| Eps
| Chr (c : ascii)
| Dot
| Seq (r1 r2 : regex)
| Alt (r1 r2 : regex)
| Star (r : regex)
| NegLookahead (r : regex)
| Group (r : regex)
| NonCapture (r : regex)
| Opt (r : regex)
| Plus (r : regex)
| Class (negated : bool) (members : list ascii).

(** The literal [s] as a sequence of characters. *)
Fixpoint lit (s : string) : regex :=
  match s with
  | EmptyString => Eps
  | String c EmptyString => Chr c
  | String c s' => Seq (Chr c) (lit s')
  end.

(** The literal [s] followed by [r]. *)
Fixpoint lit_then (s : string) (r : regex) : regex :=
  match s with
  | EmptyString => r
  | String c s' => Seq (Chr c) (lit_then s' r)
  end.

(** [.] matches any character but a line terminator: line feed and
    carriage return (the other two, U+2028 and U+2029, are not ASCII and
    do not occur in a pathname). *)
Definition line_terminator (c : ascii) : bool :=
  (Ascii.eqb c "010" || Ascii.eqb c "013")%char.

(** Greedy iteration of [step] for [*]. An iteration that consumes
    nothing is cut off, as in ECMAScript, so the length of the string
    bounds the number of iterations and serves as fuel. *)
Fixpoint iterate (step : string -> (string -> bool) -> bool)
    (k : string -> bool) (fuel : nat) (s : string) {struct fuel} : bool :=
  match fuel with
  | O => k s
  | S fuel' =>
      step s (fun s' =>
        if (String.length s' <? String.length s)%nat
        then iterate step k fuel' s' else false)
      || k s
  end.

(** Backtracking matcher in continuation-passing style: [run r s k]
    tries every way for [r] to consume a prefix of [s] and hands the
    rest to [k]. *)
Fixpoint run (r : regex) (s : string) (k : string -> bool) {struct r} : bool :=
  match r with
  | Eps => k s
  | Chr c =>
      match s with
      | String c' s' => if Ascii.eqb c c' then k s' else false
      | EmptyString => false
      end
  | Dot =>
      match s with
      | String c' s' => if line_terminator c' then false else k s'
      | EmptyString => false
      end
  | Seq r1 r2 => run r1 s (fun s' => run r2 s' k)
  | Alt r1 r2 => run r1 s k || run r2 s k
  | Star r1 => iterate (run r1) k (String.length s) s
  | NegLookahead r1 => if run r1 s (fun _ => true) then false else k s
  | Group r1 => run r1 s k
  | NonCapture r1 => run r1 s k
  | Opt r1 => run r1 s k || k s
  | Plus r1 =>
      run r1 s (fun s' => iterate (run r1) k (String.length s') s')
  | Class negated members =>
      match s with
      | String c' s' =>
          if xorb negated (existsb (Ascii.eqb c') members)
          then k s' else false
      | EmptyString => false
      end
  end.

(** The whole string matches ([^r$]). *)
Definition test (r : regex) (s : string) : bool :=
  run r s (fun rest => match rest with EmptyString => true | _ => false end).

(** Characters with a meaning of their own in a pattern. *)
Definition syntax_character (c : ascii) : bool :=
  match c with
  | "^" | "$" | "\" | "." | "*" | "+" | "?" | "(" | ")" | "[" | "]"
  | "{" | "}" | "|" => true
  | _ => false
  end%char.

(** The members of a character class, up to the closing bracket; a
    backslash escapes the character after it. *)
Fixpoint class_members (s : string) : option (list ascii * string) :=
  match s with
  | String "]" s' => Some ([], s')
  | String "\" (String c s') =>
      match class_members s' with
      | Some (members, rest) => Some (c :: members, rest)
      | None => None
      end
  | String c s' =>
      match class_members s' with
      | Some (members, rest) => Some (c :: members, rest)
      | None => None
      end
  | EmptyString => None
  end.

(** Parser for the fragment, after the grammar of ECMAScript patterns: a
    disjunction is alternatives separated by [|], an alternative is a
    sequence of terms, a term is a negative lookahead or an atom with an
    optional quantifier ([*], [?] or [{1,}]), an atom is [.], an escaped
    character, a character class, a group or a plain character. Each
    function returns the regex and the unread rest; [fuel] bounds the
    depth of the recursion. *)
Fixpoint disjunction (fuel : nat) (s : string) : option (regex * string) :=
  match fuel with
  | O => None
  | S fuel =>
      match alternative fuel s with
      | Some (r1, String "|" s') =>
          match disjunction fuel s' with
          | Some (r2, s'') => Some (Alt r1 r2, s'')
          | None => None
          end
      | other => other
      end
  end
with alternative (fuel : nat) (s : string) : option (regex * string) :=
  match fuel with
  | O => None
  | S fuel =>
      match s with
      | EmptyString | String "|" _ | String ")" _ => Some (Eps, s)
      | _ =>
          match term fuel s with
          | Some (r1, s') =>
              match s' with
              | EmptyString | String "|" _ | String ")" _ => Some (r1, s')
              | _ =>
                  match alternative fuel s' with
                  | Some (r2, s'') => Some (Seq r1 r2, s'')
                  | None => None
                  end
              end
          | None => None
          end
      end
  end
with term (fuel : nat) (s : string) : option (regex * string) :=
  match fuel with
  | O => None
  | S fuel =>
      match s with
      | String "(" (String "?" (String "!" s')) =>
          match disjunction fuel s' with
          | Some (r, String ")" s'') => Some (NegLookahead r, s'')
          | _ => None
          end
      | _ =>
          match atom fuel s with
          | Some (r, String "*" s') => Some (Star r, s')
          | Some (r, String "?" s') => Some (Opt r, s')
          | Some (r, String "{" (String "1" (String "," (String "}" s')))) =>
              Some (Plus r, s')
          | other => other
          end
      end
  end
with atom (fuel : nat) (s : string) : option (regex * string) :=
  match fuel with
  | O => None
  | S fuel =>
      match s with
      | String "(" (String "?" (String ":" s')) =>
          match disjunction fuel s' with
          | Some (r, String ")" s'') => Some (NonCapture r, s'')
          | _ => None
          end
      | String "(" s' =>
          match disjunction fuel s' with
          | Some (r, String ")" s'') => Some (Group r, s'')
          | _ => None
          end
      | String "[" (String "^" s') =>
          match class_members s' with
          | Some (members, s'') => Some (Class true members, s'')
          | None => None
          end
      | String "[" s' =>
          match class_members s' with
          | Some (members, s'') => Some (Class false members, s'')
          | None => None
          end
      | String "." s' => Some (Dot, s')
      | String "\" (String c s') => Some (Chr c, s')
      | String c s' => if syntax_character c then None else Some (Chr c, s')
      | EmptyString => None
      end
  end.

(** The regex a pattern denotes, when the whole pattern parses. *)
Definition parse (pattern : string) : option regex :=
  match disjunction (4 * S (String.length pattern)) pattern with
  | Some (r, EmptyString) => Some r
  | _ => None
  end.

End Regex.

(** ** middleware.ts: the route matcher *)

Import Regex.

(** [config], the same in middleware.ts and in the variant of the file
    that re-exports the library's middleware. The pattern is the value
    of the string literal, which writes the backslash twice. *)
Module config.

Definition matcher : list string :=
  [ "/((?!api|_next|static|.*\..*|favicon.ico).*)" ].

End config.

(** The regular expression that the framework compiles a matcher source
    to, for a source made of a slash and a parenthesised pattern (the
    form of the only source in [config]). In front of the source, whose
    slash it escapes and which it wraps in a non-capturing group, it
    puts the optional prefix of a data request, a slash and
    [_next/data/] with one more segment; behind it an optional [.json]
    and an optional delimiter; around all of it the two anchors. *)
Definition regexp (source : string) : option string :=
  match source with
  | String "/" (String "(" _ as pattern) =>
      Some ("^(?:\/(_next\/data\/[^/]{1,}))?(?:\/" +:+ pattern
            +:+ ")(.json)?[\/#\?]?$")
  | _ => None
  end.

(** The text of [s] before a final dollar sign. *)
Fixpoint before_dollar (s : string) : option string :=
  match s with
  | EmptyString => None
  | String "$" EmptyString => Some ""
  | String c s' =>
      match before_dollar s' with
      | Some body => Some (String c body)
      | None => None
      end
  end.

(** A regular expression between [^] and [$] matches the strings that
    its body matches from the first character to the last. *)
Definition anchored_body (re : string) : option string :=
  match re with
  | String "^" body => before_dollar body
  | _ => None
  end.

(** The regex that decides for a source. *)
Definition compile (source : string) : option regex :=
  match regexp source with
  | Some re =>
      match anchored_body re with
      | Some body => parse body
      | None => None
      end
  | None => None
  end.

(** The framework runs the middleware on a request when the regular
    expression of one of the sources of [config.matcher] matches the
    pathname of the request. *)
Definition config_matches (pathname : string) : bool :=
  existsb
    (fun source =>
       match compile source with
       | Some r => test r pathname
       | None => false
       end)
    config.matcher.

(** The pattern read piece by piece. The fourth alternative of the
    lookahead is the pattern for any text with a dot in it; in the fifth
    the dot of [favicon.ico] is unescaped, so it stands for any
    character. *)
Definition any_dot_any : regex :=
  Seq (Star Dot) (Seq (Chr ".") (Star Dot)).

Definition favicon_ico : regex :=
  lit_then "favicon" (Seq Dot (lit "ico")).

Definition excluded : regex :=
  Alt (lit "api")
    (Alt (lit "_next")
       (Alt (lit "static")
          (Alt any_dot_any favicon_ico))).

(** A slash, then one capturing group: the negative lookahead over the
    five alternatives, followed by [.*]. *)
Definition matcher_regex : regex :=
  Seq (Chr "/") (Group (Seq (NegLookahead excluded) (Star Dot))).

(** What the framework puts around the pattern: in front, optionally,
    [/_next/data/] and one segment of at least one character that is
    not a slash; behind, optionally, any character and [json], then
    optionally one of [/], [#] and [?]. *)
Definition data_prefix : regex :=
  Opt (NonCapture
         (Seq (Chr "/")
            (Group (lit_then "_next/data/" (Plus (Class true ["/"%char])))))).

Definition json_suffix : regex :=
  Opt (Group (Seq Dot (lit "json"))).

Definition trailing_delimiter : regex :=
  Opt (Class false ["/"; "#"; "?"]%char).

Definition framework_regex : regex :=
  Seq data_prefix
    (Seq (NonCapture matcher_regex)
       (Seq json_suffix trailing_delimiter)).

(** ** Promises

    An [async] function is a computation over the state of the world that
    either fulfils with a value or rejects with an error. [await] on a
    rejected promise rethrows, so rejection skips the rest of the body. *)

Module Async.

Inductive outcome (A : Type) : Type :=
| fulfilled (a : A)
| rejected (e : string).
Arguments fulfilled {A} a.
Arguments rejected {A} e.

Definition async (St A : Type) : Type := St -> outcome A * St.

Definition ret {St A : Type} (a : A) : async St A :=
  fun w => (fulfilled a, w).

Definition bind {St A B : Type} (c : async St A) (k : A -> async St B)
  : async St B :=
  fun w =>
    match c w with
    | (fulfilled a, w') => k a w'
    | (rejected e, w') => (rejected e, w')
    end.

Definition throw {St A : Type} (e : string) : async St A :=
  fun w => (rejected e, w).

Definition get {St : Type} : async St St :=
  fun w => (fulfilled w, w).

Definition put {St : Type} (w : St) : async St unit :=
  fun _ => (fulfilled tt, w).

End Async.

Import Async.

Notation "x <- 'await' c ;; k" := (bind c (fun x => k))
  (at level 100, c at next level, right associativity).

(** ** Framework types: URL, request, response *)

Module URL.

(** A parsed absolute URL with the attributes of the WHATWG API. *)
Record t : Type := mk {
  protocol : string;
  username : string;
  password : string;
  hostname : string;
  port : string;
  pathname : string;
  search : string;
  hash : string
}.

(** [new URL(input, base)] for an [input] that is an absolute path with
    no query, fragment, dot segment or character to encode, which is
    the only kind of input the sources pass: scheme and authority come
    from [base], the path is [input], query and fragment are empty. *)
Definition new (input : string) (base : t) : t :=
  {| protocol := protocol base;
     username := username base;
     password := password base;
     hostname := hostname base;
     port := port base;
     pathname := input;
     search := "";
     hash := "" |}.

End URL.

Module NextRequest.

(** [url] is held parsed; the framework only hands over valid URLs. *)
Record t : Type := mk {
  url : URL.t;
  method : string;
  headers : list (string * string);
  body : option string
}.

End NextRequest.

Module NextResponse.

(** The two responses the middleware builds. *)
Inductive t : Type :=
| redirect (url : URL.t)
| next.

End NextResponse.

(** ** Library types: token, user, session *)

Module JWT.

Record t : Type := mk {
  name : Js.maybe_string;
  email : Js.maybe_string;
  picture : Js.maybe_string;
  sub : option string
}.

End JWT.

Module GetTokenParams.

Record t : Type := mk {
  req : NextRequest.t;
  secret : option string
}.

End GetTokenParams.

Module User.

(** [session.user]; [id] is the property that types/next-auth.d.ts
    declares, absent on the object the library builds. *)
Record t : Type := mk {
  id : option string;
  name : Js.maybe_string;
  email : Js.maybe_string;
  image : Js.maybe_string
}.

Definition with_id (v : option string) (u : t) : t :=
  {| id := v; name := name u; email := email u; image := image u |}.

End User.

Module Session.

(** A session as a value, the way a reader sees it. *)
Record t : Type := mk {
  user : option User.t;
  expires : string
}.

End Session.

(** Objects are shared and updated in place; the server side keeps them
    in a store addressed by references. A session object holds a
    reference to its user object. *)
Definition ref : Type := positive.

Module Store.

Record session_object : Type := mk_session {
  user : option ref;
  expires : string
}.

Record t : Type := mk {
  sessions : gmap ref session_object;
  users : gmap ref User.t
}.

(** [session.user]; a reference to no object does not arise from
    TypeScript and is answered like a property access on [undefined]. *)
Definition get_user (session : ref) : async t (option ref) :=
  h <- await get ;;
  match sessions h !! session with
  | Some o => ret (user o)
  | None => throw "TypeError"
  end.

(** [user.id = v], an update in place of the user object. *)
Definition set_id (user : ref) (v : option string) : async t unit :=
  h <- await get ;;
  match users h !! user with
  | Some u =>
      put {| sessions := sessions h;
             users := <[user := User.with_id v u]> (users h) |}
  | None => throw "TypeError"
  end.

(** The value of the session object at [session], user object included. *)
Definition read (h : t) (session : ref) : option Session.t :=
  match sessions h !! session with
  | Some o =>
      match user o with
      | None => Some {| Session.user := None; Session.expires := expires o |}
      | Some lu =>
          match users h !! lu with
          | Some u =>
              Some {| Session.user := Some u; Session.expires := expires o |}
          | None => None
          end
      end
  | None => None
  end.

End Store.

(** ** auth options (app/api/auth/[...nextauth]/route.ts) *)

Module SessionParams.

(** The argument of the session callback, as the source destructures it. *)
Record t : Type := mk {
  session : ref;
  token : JWT.t
}.

End SessionParams.

Module AzureADOptions.

Record t : Type := mk {
  clientId : string;
  clientSecret : string;
  tenantId : string
}.

End AzureADOptions.

(** A provider is the library call that builds it, with its argument. *)
Inductive Provider : Type :=
| AzureADProvider (options : AzureADOptions.t).

Module Theme.

Record t : Type := mk {
  colorScheme : string;
  logo : string
}.

End Theme.

Module Callbacks.

Record t : Type := mk {
  session : SessionParams.t -> async Store.t ref
}.

End Callbacks.

Module NextAuthOptions.

Record t : Type := mk {
  providers : list Provider;
  callbacks : Callbacks.t;
  secret : option string;
  theme : Theme.t
}.

End NextAuthOptions.

(** [callbacks.session]: copies the token's subject into [session.user.id]
    when both [session.user] and [token.sub] are truthy, and returns the
    session object it was given. *)
Definition session (params : SessionParams.t) : async Store.t ref :=
  let session := SessionParams.session params in
  let token := SessionParams.token params in
  user <- await Store.get_user session ;;
  match user with
  | Some user =>
      if Js.truthy (JWT.sub token)
      then _ <- await Store.set_id user (JWT.sub token) ;; ret session
      else ret session
  | None => ret session
  end.

(** [authOptions], a function of [process.env]. *)
Definition authOptions (process_env : gmap string string) : NextAuthOptions.t :=
  {| NextAuthOptions.providers :=
       [ AzureADProvider
           {| AzureADOptions.clientId :=
                Js.or_else (process_env !! "AZURE_AD_CLIENT_ID") "";
              AzureADOptions.clientSecret :=
                Js.or_else (process_env !! "AZURE_AD_CLIENT_SECRET") "";
              AzureADOptions.tenantId :=
                Js.or_else (process_env !! "AZURE_AD_TENANT_ID") "" |} ];
     NextAuthOptions.callbacks := {| Callbacks.session := session |};
     NextAuthOptions.secret := process_env !! "NEXTAUTH_SECRET";
     NextAuthOptions.theme :=
       {| Theme.colorScheme := "light"; Theme.logo := "/next.svg" |} |}.

(** ** middleware.ts and lib/auth.ts *)

Section Server.

(** State of everything outside the repository: cookies, clock, the
    library's own state. *)
Context {World : Type}.

(** [getToken] of next-auth/jwt: a token, or [null]. *)
Variable getToken : GetTokenParams.t -> async World (option JWT.t).

(** [getServerSession] of next-auth: a session, or [null]. *)
Variable getServerSession : NextAuthOptions.t -> async World (option Session.t).

Definition middleware (process_env : gmap string string)
    (request : NextRequest.t) : async World NextResponse.t :=
  token <- await getToken
             {| GetTokenParams.req := request;
                GetTokenParams.secret := process_env !! "NEXTAUTH_SECRET" |} ;;
  match token with
  | None =>
      let signInUrl := URL.new "/api/auth/signin" (NextRequest.url request) in
      ret (NextResponse.redirect signInUrl)
  | Some _ => ret NextResponse.next
  end.

Definition getSession (process_env : gmap string string)
  : async World (option Session.t) :=
  r <- await getServerSession (authOptions process_env) ;;
  ret r.

End Server.

(** ** components/UserProfile.tsx *)

Inductive Status : Type :=
| loading
| authenticated
| unauthenticated.

Module SessionContextValue.

(** What [useSession()] returns; the source reads [data] and [status]. *)
Record t : Type := mk {
  data : option Session.t;
  status : Status
}.

End SessionContextValue.

(** React elements: text, an embedded string-valued expression, or a tag
    with children. *)
#[local] Unset Elimination Schemes.
Inductive ReactNode : Type :=
| text (s : string)
| expr (v : Js.maybe_string)
| element (tag : string) (children : list ReactNode).
#[local] Set Elimination Schemes.

(** [session.user?.name] *)
Definition user_name (session : Session.t) : Js.maybe_string :=
  match Session.user session with
  | Some user => User.name user
  | None => Js.undefined
  end.

Definition UserProfile (useSession : unit -> SessionContextValue.t) : ReactNode :=
  let ctx := useSession tt in
  let session := SessionContextValue.data ctx in
  let status := SessionContextValue.status ctx in
  match status with
  | loading => element "p" [text "Loading..."]
  | _ =>
      match session with
      | None => element "p" [text "You are not logged in."]
      | Some session =>
          element "div" [text "Welcome, "; expr (user_name session); text "!"]
      end
  end.

(** What React puts on the page for an embedded value: [null] and
    [undefined] render nothing. *)
Definition rendered (v : Js.maybe_string) : string :=
  match v with
  | Js.str s => s
  | Js.null | Js.undefined => ""
  end.

(** The text of a rendered node. *)
Fixpoint textContent (n : ReactNode) : string :=
  match n with
  | text s => s
  | expr v => rendered v
  | element _ children => String.concat "" (List.map textContent children)
  end.

(** ** Reading the matcher

    Closed forms of what the pieces of the pattern accept, used to state
    what [config_matches] computes. *)

(** [strip p s]: the rest of [s] after the prefix [p]. *)
Fixpoint strip (p s : string) : option string :=
  match p, s with
  | EmptyString, _ => Some s
  | String c p', String c' s' => if Ascii.eqb c c' then strip p' s' else None
  | String _ _, EmptyString => None
  end.

Definition starts_with (p s : string) : bool :=
  match strip p s with
  | Some _ => true
  | None => false
  end.

(** [.*] followed by [k]: [k] accepts the rest after some run of
    characters that are not line terminators. *)
Fixpoint star_dot (k : string -> bool) (s : string) : bool :=
  k s ||
  match s with
  | String c s' => negb (line_terminator c) && star_dot k s'
  | EmptyString => false
  end.

Fixpoint no_line_terminator (s : string) : bool :=
  match s with
  | String c s' => negb (line_terminator c) && no_line_terminator s'
  | EmptyString => true
  end.

(** A dot occurs in [s] before any line terminator. *)
Fixpoint dot_on_first_line (s : string) : bool :=
  match s with
  | String c s' =>
      Ascii.eqb "." c || negb (line_terminator c) && dot_on_first_line s'
  | EmptyString => false
  end.

Fixpoint contains_dot (s : string) : bool :=
  match s with
  | String c s' => Ascii.eqb "." c || contains_dot s'
  | EmptyString => false
  end.

(** [s] starts with [favicon], one more character, then [ico]. *)
Definition favicon_any_ico (s : string) : bool :=
  match strip "favicon" s with
  | Some (String c s') => negb (line_terminator c) && starts_with "ico" s'
  | _ => false
  end.

(** [.*] for a class of characters: [k] accepts the rest after some run
    of characters that satisfy [p]. *)
Fixpoint star_class (p : ascii -> bool) (k : string -> bool) (s : string)
  : bool :=
  k s ||
  match s with
  | String c s' => p c && star_class p k s'
  | EmptyString => false
  end.


(** [s] from its first slash on. *)
Fixpoint skip_segment (s : string) : string :=
  match s with
  | String c s' => if Ascii.eqb c "/" then s else skip_segment s'
  | EmptyString => EmptyString
  end.

(** For a pathname that starts with [/_next/data/] and one more
    character that is not a slash: what follows that segment. *)
Definition data_request_page (pathname : string) : option string :=
  match strip "/_next/data/" pathname with
  | Some (String c t) =>
      if Ascii.eqb c "/" then None else Some (skip_segment t)
  | _ => None
  end.

(** What the pattern accepts, in closed form. *)
Definition matcher_accepts (pathname : string) : bool :=
  match pathname with
  | String c rest =>
      Ascii.eqb "/" c
      && negb (starts_with "api" rest)
      && negb (starts_with "_next" rest)
      && negb (starts_with "static" rest)
      && negb (dot_on_first_line rest)
      && negb (favicon_any_ico rest)
      && no_line_terminator rest
  | EmptyString => false
  end.

(** What the framework's regular expression accepts: what the pattern
    accepts, with or without the prefix of a data request in front. *)
Definition framework_accepts (pathname : string) : bool :=
  match data_request_page pathname with
  | Some page => matcher_accepts page
  | None => false
  end
  || matcher_accepts pathname.

(** The interception rule in the words of the specification: after the
    leading slash the path does not start with [api], [_next] or
    [static], contains no dot, and is not [favicon.ico]. *)
Definition spec_intercepts (pathname : string) : bool :=
  match pathname with
  | String c rest =>
      Ascii.eqb "/" c
      && negb (starts_with "api" rest)
      && negb (starts_with "_next" rest)
      && negb (starts_with "static" rest)
      && negb (contains_dot rest)
      && negb (String.eqb rest "favicon.ico")
  | EmptyString => false
  end.

(** ** What reaches the authentication library

    The library receives [authOptions] and the argument of the
    middleware's [getToken] call. A [getToken] that records its argument
    and answers [null] makes the second observable. *)






(** ** app/page.tsx, the components and app/layout.tsx *)

Section Pages.

Context {World : Type}.
Variable getServerSession : NextAuthOptions.t -> async World (option Session.t).

(** The server component of the guide: it awaits the session helper and
    tells the visitor to log in when there is no session. *)
Definition HomePage (process_env : gmap string string)
  : async World ReactNode :=
  session <- await getSession getServerSession process_env ;;
  match session with
  | None => ret (element "p" [text "You must be logged in to access this page."])
  | Some session =>
      ret (element "div" [text "Welcome, "; expr (user_name session); text "!"])
  end.

End Pages.

Module SignOutParams.

Record t : Type := mk {
  callbackUrl : option string
}.

End SignOutParams.

(** A tree of components before it is rendered: host elements with their
    attributes and click handler, text, the library's [SessionProvider],
    and client components that call [useSession]. *)
#[local] Unset Elimination Schemes.
Inductive Tree (World : Type) : Type :=
| Host (tag : string) (attrs : list (string * string))
    (onClick : option (async World unit)) (children : list (Tree World))
| Txt (s : string)
| SessionProvider (children : list (Tree World))
| WithSession (component : (unit -> SessionContextValue.t) -> ReactNode).
#[local] Set Elimination Schemes.
Arguments Host {World} tag attrs onClick children.
Arguments Txt {World} s.
Arguments SessionProvider {World} children.
Arguments WithSession {World} component.

Section Layout.

Context {World : Type}.

(** [signOut] of next-auth/react, an [async] function. *)
Variable signOut : SignOutParams.t -> async World unit.

(** [handleLogout] of LogoutButton: it starts [signOut] and returns
    without awaiting it, so the promise and its outcome are dropped. *)
Definition handleLogout : async World unit :=
  fun w => (fulfilled tt, snd (signOut {| SignOutParams.callbackUrl := Some "/" |} w)).

Definition LogoutButton : Tree World :=
  Host "button" [("className", "bg-red-500 text-white px-4 py-2 rounded")]
    (Some handleLogout) [Txt "Logout"].

(** [Wrapper]: the children inside the session provider. *)
Definition Wrapper (children : list (Tree World)) : Tree World :=
  SessionProvider children.

(** [RootLayout] of app/layout.tsx. [inter_className] is the class name
    that the font loader returns. *)
Definition RootLayout (inter_className : string)
    (children : list (Tree World)) : Tree World :=
  Host "html" [("lang", "en")] None
    [ Host "body" [("className", inter_className)] None
        [ Wrapper
            [ Host "header"
                [("className", "flex items-center justify-between p-4")] None
                [ WithSession UserProfile; LogoutButton ];
              Host "main" [] None children ] ] ].

(** [RootLayout] as the guide prints it: the wrapper is inside the
    header and the page content is outside of it. *)
Definition guide_RootLayout (inter_className : string)
    (children : list (Tree World)) : Tree World :=
  Host "html" [("lang", "en")] None
    [ Host "body" [("className", inter_className)] None
        [ Host "header"
            [("className", "flex items-center justify-between p-4")] None
            [ Wrapper [ WithSession UserProfile; LogoutButton ] ];
          Host "main" [] None children ] ].

(** The text of a mounted tree. [value] is what the session provider
    holds; [context] is what the nearest provider above supplies, if
    there is one. A component that calls [useSession] with no provider
    above it throws, and the tree does not mount. *)
Fixpoint mount (value : SessionContextValue.t)
    (context : option SessionContextValue.t) (t : Tree World)
  : option string :=
  let mount_all :=
    fix mount_all (context : option SessionContextValue.t)
        (ts : list (Tree World)) : option string :=
      match ts with
      | [] => Some ""
      | t :: ts' =>
          match mount value context t, mount_all context ts' with
          | Some a, Some b => Some (a +:+ b)
          | _, _ => None
          end
      end in
  match t with
  | Host _ _ _ children => mount_all context children
  | Txt s => Some s
  | SessionProvider children => mount_all (Some value) children
  | WithSession component =>
      match context with
      | Some v => Some (textContent (component (fun _ => v)))
      | None => None
      end
  end.

(** The text of a list of siblings. *)
Definition mount_children (value : SessionContextValue.t)
    (context : option SessionContextValue.t) (ts : list (Tree World))
  : option string :=
  foldr
    (fun t rest =>
       match mount value context t, rest with
       | Some a, Some b => Some (a +:+ b)
       | _, _ => None
       end)
    (Some "") ts.

(** A component of the tree calls [useSession] with no provider above
    it inside the tree. *)
Fixpoint needs_session (t : Tree World) : bool :=
  match t with
  | Host _ _ _ children => existsb needs_session children
  | Txt _ => false
  | SessionProvider _ => false
  | WithSession _ => true
  end.

(** The click handlers of a tree, in document order. *)
Fixpoint handlers (t : Tree World) : list (async World unit) :=
  match t with
  | Host _ _ onClick children =>
      (match onClick with Some h => [h] | None => [] end
       ++ List.concat (List.map handlers children))%list
  | Txt _ => []
  | SessionProvider children => List.concat (List.map handlers children)
  | WithSession _ => []
  end.

End Layout.

(** A [signOut] that records its argument and then fails or succeeds. *)
Definition recording_signOut (fails : bool) (params : SignOutParams.t)
  : async (list SignOutParams.t) unit :=
  fun log =>
    (if fails then rejected "fetch failed" else fulfilled tt,
     (log ++ [params])%list).

(** ** Sample values *)

Module Sample.

Definition url : URL.t :=
  {| URL.protocol := "https:"; URL.username := ""; URL.password := "";
     URL.hostname := "app.example.com"; URL.port := "";
     URL.pathname := "/dashboard"; URL.search := "?tab=1"; URL.hash := "" |}.

Definition request : NextRequest.t :=
  {| NextRequest.url := url; NextRequest.method := "GET";
     NextRequest.headers := [("accept", "text/html")];
     NextRequest.body := None |}.

(** The same URL asked for in another way. *)
Definition other_request : NextRequest.t :=
  {| NextRequest.url := url; NextRequest.method := "POST";
     NextRequest.headers := [("cookie", "theme=dark")];
     NextRequest.body := Some "x=1" |}.

Definition env : gmap string string :=
  {[ "AZURE_AD_CLIENT_ID" := "client"; "NEXTAUTH_SECRET" := "s3cret" ]}.

Definition user : User.t :=
  {| User.id := None; User.name := Js.str "Ada";
     User.email := Js.str "ada@example.com"; User.image := Js.null |}.

(** One session object at reference 1 whose user object is at 2. *)
Definition store : Store.t :=
  {| Store.sessions :=
       {[ 1%positive :=
            {| Store.user := Some 2%positive;
               Store.expires := "2030-01-01T00:00:00.000Z" |} ]};
     Store.users := {[ 2%positive := user ]} |}.

Definition token (sub : option string) : JWT.t :=
  {| JWT.name := Js.str "Ada"; JWT.email := Js.str "ada@example.com";
     JWT.picture := Js.null; JWT.sub := sub |}.

Definition params (sub : option string) : SessionParams.t :=
  {| SessionParams.session := 1%positive; SessionParams.token := token sub |}.

Definition session : Session.t :=
  {| Session.user := Some user;
     Session.expires := "2030-01-01T00:00:00.000Z" |}.

(** A library that finds no token and one that finds a token. *)
Definition no_token (_ : GetTokenParams.t) : async unit (option JWT.t) :=
  fun w => (fulfilled None, w).

Definition some_token (_ : GetTokenParams.t) : async nat (option JWT.t) :=
  fun w => (fulfilled (Some (token (Some "42"))), S w).

(** A library that fails. *)
Definition broken (_ : GetTokenParams.t) : async unit (option JWT.t) :=
  fun w => (rejected "JWEInvalid", w).

(** The hook after a successful sign-in. *)
Definition useSession (_ : unit) : SessionContextValue.t :=
  {| SessionContextValue.data := Some session;
     SessionContextValue.status := authenticated |}.

(** Two session objects, at 1 and at 3, that share the user object at 2. *)
Definition shared_store : Store.t :=
  {| Store.sessions :=
       {[ 1%positive :=
            {| Store.user := Some 2%positive;
               Store.expires := "2030-01-01T00:00:00.000Z" |};
          3%positive :=
            {| Store.user := Some 2%positive;
               Store.expires := "2031-06-30T12:00:00.000Z" |} ]};
     Store.users := {[ 2%positive := user ]} |}.

(** A library that finds the sample session, and one that finds none. *)
Definition session_found (_ : NextAuthOptions.t)
  : async unit (option Session.t) :=
  fun w => (fulfilled (Some session), w).

(** What the provider holds after a successful sign-in. *)
Definition useSession_value : SessionContextValue.t := useSession tt.

(** A page made of a client component that reads the session. *)
Definition profile_page : list (Tree (list SignOutParams.t)) :=
  [ Host "section" [] None [ WithSession UserProfile ] ].

End Sample.

(** ** Properties of the regex matcher *)

Lemma iterate_dot (k : string -> bool) (fuel : nat) :
  forall s : string,
    String.length s <= fuel -> iterate (run Dot) k fuel s = star_dot k s.
Proof.
  induction fuel as [|fuel IH]; intros s Hlen.
  - destruct s as [|c s]; simpl in *; [|lia]. now rewrite orb_false_r.
  - destruct s as [|c s]; simpl.
    + now rewrite orb_false_r.
    + assert (Hlt : (String.length s <? S (String.length s))%nat = true)
        by (apply Nat.ltb_lt; lia).
      rewrite Hlt, IH by (simpl in Hlen; lia).
      rewrite orb_comm. now destruct (line_terminator c).
Qed.

Lemma star_dot_any (s : string) : star_dot (fun _ => true) s = true.
Proof. now destruct s. Qed.

Lemma star_dot_end (s : string) :
  star_dot (fun rest => match rest with EmptyString => true | _ => false end) s
  = no_line_terminator s.
Proof. induction s as [|c s IH]; simpl; [done|]. now rewrite IH. Qed.

Lemma run_lit (t : string) :
  forall (s : string) (k : string -> bool),
    run (lit t) s k = match strip t s with Some s' => k s' | None => false end.
Proof.
  induction t as [|c t IH]; intros s k; [done|].
  destruct t as [|c2 t].
  - destruct s as [|c' s]; simpl; [done|]. now destruct (Ascii.eqb c c').
  - change (lit (String c (String c2 t)))
      with (Seq (Chr c) (lit (String c2 t))).
    destruct s as [|c' s]; [done|].
    cbn [run strip]. destruct (Ascii.eqb c c'); [apply IH|done].
Qed.

Lemma run_lit_lookahead (t s : string) :
  run (lit t) s (fun _ => true) = starts_with t s.
Proof. rewrite run_lit. unfold starts_with. now destruct (strip t s). Qed.

Lemma run_any_dot_any (s : string) :
  run any_dot_any s (fun _ => true) = dot_on_first_line s.
Proof.
  unfold any_dot_any. cbn [run]. rewrite iterate_dot by lia.
  induction s as [|c s IH]; [done|].
  cbn [star_dot dot_on_first_line]. rewrite IH.
  destruct (Ascii.eqb "." c); [|done].
  now rewrite iterate_dot, star_dot_any by lia.
Qed.

Lemma run_lit_then (t : string) (r : regex) :
  forall (s : string) (k : string -> bool),
    run (lit_then t r) s k
    = match strip t s with Some s' => run r s' k | None => false end.
Proof.
  induction t as [|c t IH]; intros s k; [done|].
  destruct s as [|c' s]; [done|].
  cbn [lit_then run strip]. destruct (Ascii.eqb c c'); [apply IH|done].
Qed.

Lemma run_favicon_ico (s : string) :
  run favicon_ico s (fun _ => true) = favicon_any_ico s.
Proof.
  unfold favicon_ico. rewrite run_lit_then. unfold favicon_any_ico.
  destruct (strip "favicon" s) as [[|c s']|]; [reflexivity| |reflexivity].
  cbn [run]. destruct (line_terminator c); [reflexivity|].
  apply run_lit_lookahead.
Qed.

Lemma run_excluded (s : string) :
  run excluded s (fun _ => true)
  = starts_with "api" s || starts_with "_next" s || starts_with "static" s
    || dot_on_first_line s || favicon_any_ico s.
Proof.
  unfold excluded. cbn [run].
  rewrite !run_lit_lookahead, run_any_dot_any, run_favicon_ico.
  now rewrite !orb_assoc.
Qed.

(** X4. The pattern of the source parses to the regex read above. *)
Lemma matcher_parses :
  parse <$> config.matcher = [ Some matcher_regex ].
Proof. reflexivity. Qed.

(** The source of [config] compiles to the regex read above. *)
Lemma matcher_compiles :
  compile <$> config.matcher = [ Some framework_regex ].
Proof. reflexivity. Qed.

Lemma config_matches_regex (pathname : string) :
  config_matches pathname = test framework_regex pathname.
Proof.
  unfold config_matches.
  change config.matcher with [ "/((?!api|_next|static|.*\..*|favicon.ico).*)" ].
  cbn [existsb].
  change (compile "/((?!api|_next|static|.*\..*|favicon.ico).*)")
    with (Some framework_regex).
  apply orb_false_r.
Qed.

Lemma iterate_class (negated : bool) (members : list ascii)
    (k : string -> bool) (fuel : nat) :
  forall s : string,
    String.length s <= fuel ->
    iterate (run (Class negated members)) k fuel s
    = star_class (fun c => xorb negated (existsb (Ascii.eqb c) members)) k s.
Proof.
  induction fuel as [|fuel IH]; intros s Hlen.
  - destruct s as [|c s]; simpl in *; [|lia]. now rewrite orb_false_r.
  - destruct s as [|c s]; cbn [iterate run star_class].
    + now rewrite orb_false_r.
    + assert (Hlt : (String.length s <? String.length (String c s))%nat = true)
        by (apply Nat.ltb_lt; simpl; lia).
      rewrite Hlt, IH by (simpl in Hlen; lia).
      rewrite orb_comm.
      now destruct (xorb negated (existsb (Ascii.eqb c) members)).
Qed.

Lemma star_class_ext (p : ascii -> bool) (k k' : string -> bool) :
  (forall s, k s = k' s) -> forall s, star_class p k s = star_class p k' s.
Proof.
  intros Hk s. induction s as [|c s IH]; cbn [star_class]; rewrite Hk; [done|].
  now rewrite IH.
Qed.

Lemma strip_no_line_terminator (p : string) :
  no_line_terminator p = true ->
  forall s t : string,
    strip p s = Some t -> no_line_terminator s = no_line_terminator t.
Proof.
  induction p as [|a p IH]; intros Hp s t.
  - now intros [= ->].
  - cbn [no_line_terminator] in Hp. apply andb_prop in Hp as [Ha Hp].
    destruct s as [|b s]; [done|]. cbn [strip].
    destruct (Ascii.eqb_spec a b) as [<-|]; [|done].
    intros Hs. cbn [no_line_terminator]. rewrite Ha. now apply IH.
Qed.

(** The end of the regular expression accepts no line terminator. *)
Lemma run_trailing_delimiter (u : string) :
  run trailing_delimiter u
    (fun rest => match rest with EmptyString => true | _ => false end) = true ->
  no_line_terminator u = true.
Proof.
  unfold trailing_delimiter. cbn [run].
  destruct u as [|d [|e u]]; [done| |].
  - cbn [existsb no_line_terminator]. rewrite !orb_false_r, andb_true_r.
    intros H%orb_prop. destruct H as [H|H]; [|done].
    destruct (Ascii.eqb_spec d "/") as [Hd|_]; [by rewrite Hd|].
    destruct (Ascii.eqb_spec d "#") as [Hd|_]; [by rewrite Hd|].
    destruct (Ascii.eqb_spec d "?") as [Hd|_]; [by rewrite Hd|]. done.
  - now destruct (xorb false (existsb (Ascii.eqb d) ["/"; "#"; "?"]%char)).
Qed.

Lemma run_json_suffix (t : string) :
  run json_suffix t
    (fun s' => run trailing_delimiter s'
       (fun rest => match rest with EmptyString => true | _ => false end))
  = true ->
  no_line_terminator t = true.
Proof.
  unfold json_suffix. cbn [run]. intros H%orb_prop.
  destruct H as [H|H]; [|by apply run_trailing_delimiter].
  destruct t as [|c t]; [done|]. cbn [no_line_terminator].
  destruct (line_terminator c); [done|]. rewrite run_lit in H.
  destruct (strip "json" t) as [u|] eqn:Hu; [|done].
  rewrite (strip_no_line_terminator "json" eq_refl _ _ Hu).
  by apply run_trailing_delimiter.
Qed.

Lemma star_dot_tail (k : string -> bool) :
  k "" = true ->
  (forall t, k t = true -> no_line_terminator t = true) ->
  forall s, star_dot k s = no_line_terminator s.
Proof.
  intros Hempty Hk s. induction s as [|c s IH]; cbn [star_dot no_line_terminator].
  - now rewrite Hempty.
  - rewrite IH. destruct (k (String c s)) eqn:E; [|done].
    apply Hk in E. cbn [no_line_terminator] in E. now rewrite E.
Qed.

(** The pattern with the end of the regular expression behind it
    accepts what the pattern alone accepts. *)
Lemma run_matcher_tail (s : string) :
  run (NonCapture matcher_regex) s
    (fun s1 => run json_suffix s1
       (fun s2 => run trailing_delimiter s2
          (fun rest => match rest with EmptyString => true | _ => false end)))
  = matcher_accepts s.
Proof.
  unfold matcher_regex. cbn [run].
  destruct s as [|c rest]; [done|]. unfold matcher_accepts.
  destruct (Ascii.eqb "/" c); [|done].
  rewrite run_excluded, iterate_dot by lia.
  rewrite star_dot_tail by (done || apply run_json_suffix).
  destruct (starts_with "api" rest), (starts_with "_next" rest),
    (starts_with "static" rest), (dot_on_first_line rest),
    (favicon_any_ico rest); done.
Qed.

(** After a run of characters that are not slashes the pattern accepts
    what it accepts from the next slash on. *)
Lemma star_not_slash_matcher (t : string) :
  star_class (fun c => xorb true (existsb (Ascii.eqb c) ["/"%char]))
    matcher_accepts t
  = matcher_accepts (skip_segment t).
Proof.
  induction t as [|c t IH]; cbn [star_class skip_segment].
  - apply orb_false_r.
  - rewrite IH. cbn [existsb]. rewrite orb_false_r.
    destruct (Ascii.eqb c "/") eqn:E.
    + cbn [xorb negb andb]. apply orb_false_r.
    + unfold matcher_accepts at 1. rewrite Ascii.eqb_sym, E. reflexivity.
Qed.

Lemma run_data_prefix (s : string) (k : string -> bool) :
  run data_prefix s k
  = match strip "/_next/data/" s with
    | Some (String c t) =>
        if Ascii.eqb c "/" then false
        else star_class
               (fun c => xorb true (existsb (Ascii.eqb c) ["/"%char])) k t
    | _ => false
    end
    || k s.
Proof.
  change (run data_prefix s k)
    with (run (lit_then "/_next/data/" (Plus (Class true ["/"%char]))) s k
          || k s).
  rewrite run_lit_then. f_equal.
  destruct (strip "/_next/data/" s) as [[|c t]|]; [done| |done].
  change (run (Plus (Class true ["/"%char])) (String c t) k)
    with (if xorb true (existsb (Ascii.eqb c) ["/"%char])
          then iterate (run (Class true ["/"%char])) k (String.length t) t
          else false).
  rewrite iterate_class by lia. cbn [existsb]. rewrite orb_false_r.
  now destruct (Ascii.eqb c "/").
Qed.

(** The regular expression of the framework computes its closed form on
    every string. *)
Lemma config_matches_accepts (pathname : string) :
  config_matches pathname = framework_accepts pathname.
Proof.
  rewrite config_matches_regex.
  change (test framework_regex pathname)
    with (run data_prefix pathname
            (fun s0 => run (NonCapture matcher_regex) s0
               (fun s1 => run json_suffix s1
                  (fun s2 => run trailing_delimiter s2
                     (fun rest =>
                        match rest with EmptyString => true | _ => false end))))).
  rewrite run_data_prefix, run_matcher_tail.
  unfold framework_accepts, data_request_page. f_equal.
  destruct (strip "/_next/data/" pathname) as [[|c t]|]; [done| |done].
  destruct (Ascii.eqb c "/"); [done|].
  rewrite (star_class_ext _ _ matcher_accepts) by apply run_matcher_tail.
  apply star_not_slash_matcher.
Qed.

(** Outside [/_next/data/] the framework adds nothing to the pattern. *)
Lemma framework_accepts_plain (pathname : string) :
  starts_with "/_next/data/" pathname = false ->
  framework_accepts pathname = matcher_accepts pathname.
Proof.
  unfold starts_with, framework_accepts, data_request_page.
  now destruct (strip "/_next/data/" pathname).
Qed.

Lemma contains_dot_first_line (s : string) :
  no_line_terminator s = true -> dot_on_first_line s = contains_dot s.
Proof.
  induction s as [|c s IH]; simpl; [done|].
  intros [Hc Hs]%andb_prop. now rewrite Hc, IH.
Qed.








(** X2. Outside [/_next/data/], whatever the framework's matcher
    accepts, the rule of the specification accepts. *)
Lemma config_matches_sound (pathname : string) :
  starts_with "/_next/data/" pathname = false ->
  config_matches pathname = true -> spec_intercepts pathname = true.
Proof.
  intros Hplain. rewrite config_matches_accepts, framework_accepts_plain by done.
  destruct pathname as [|c rest]; [done|].
  unfold matcher_accepts, spec_intercepts.
  rewrite !andb_true_iff, !negb_true_iff.
  intros [[[[[[Hc Ha] Hn] Hs] Hd] _] Hl].
  rewrite (contains_dot_first_line _ Hl) in Hd.
  rewrite Hc, Ha, Hn, Hs, Hd. simpl.
  destruct (String.eqb_spec rest "favicon.ico") as [->|]; [|done].
  discriminate Hd.
Qed.

(** X7. The two agree on every path outside [/_next/data/] that has no
    line terminator, unless what follows the slash starts with
    [favicon], one character and [ico]. *)
Lemma config_matches_complete (c : ascii) (rest : string) :
  starts_with "/_next/data/" (String c rest) = false ->
  no_line_terminator rest = true ->
  favicon_any_ico rest = false ->
  config_matches (String c rest) = spec_intercepts (String c rest).
Proof.
  intros Hplain Hl Hf.
  rewrite config_matches_accepts, framework_accepts_plain by done.
  unfold matcher_accepts, spec_intercepts.
  rewrite Hl, Hf, (contains_dot_first_line _ Hl), andb_true_r. simpl.
  destruct (String.eqb_spec rest "favicon.ico") as [->|]; [|now rewrite !andb_true_r].
  simpl. now rewrite !andb_false_r.
Qed.

Lemma starts_with_other (p q rest : string) (a b : ascii) :
  a <> b ->
  starts_with (String a p) rest = true ->
  starts_with (String b q) rest = false.
Proof.
  intros Hab. unfold starts_with. destruct rest as [|c rest]; [done|].
  cbn [strip]. destruct (Ascii.eqb_spec a c) as [<-|]; [|done].
  intros _. by destruct (Ascii.eqb_spec b a) as [->|].
Qed.

(** X3. Paths that after the slash start with [api] or [static] are
    never matched, and outside [/_next/data/] neither are paths that
    start with [_next] or have a dot. *)
Lemma config_excludes (rest : string) :
  starts_with "api" rest = true
  \/ starts_with "static" rest = true
  \/ starts_with "_next/data/" rest = false
     /\ (starts_with "_next" rest = true \/ contains_dot rest = true) ->
  config_matches (String "/" rest) = false.
Proof.
  intros H. rewrite config_matches_accepts.
  assert (Hplain : starts_with "/_next/data/" (String "/" rest) = false).
  { change (starts_with "/_next/data/" (String "/" rest))
      with (starts_with "_next/data/" rest).
    destruct H as [H | [H | [H _]]]; [| |exact H].
    - apply (starts_with_other "pi" "next/data/" rest "a" "_");
        [discriminate|exact H].
    - apply (starts_with_other "tatic" "next/data/" rest "s" "_");
        [discriminate|exact H]. }
  rewrite framework_accepts_plain by done. unfold matcher_accepts.
  destruct H as [-> | [-> | [_ [-> | H]]]]; simpl;
    rewrite ?andb_false_r; try done.
  destruct (no_line_terminator rest) eqn:Hl; [|by rewrite andb_false_r].
  by rewrite (contains_dot_first_line _ Hl), H, !andb_false_r.
Qed.

(** The regular expression of the framework for [config.matcher], and
    what it does with data requests: the prefix may hold a dot, the page
    behind it may not. *)
Example framework_regexp :
  regexp <$> config.matcher
  = [ Some "^(?:\/(_next\/data\/[^/]{1,}))?(?:\/((?!api|_next|static|.*\..*|favicon.ico).*))(.json)?[\/#\?]?$" ]
  /\ config_matches "/dashboard" = true
  /\ config_matches "/_next/data/build/dashboard" = true
  /\ config_matches "/_next/data/bu.ild/dashboard" = true
  /\ config_matches "/_next/data/build/dashboard.json" = false
  /\ config_matches "/_next/static/chunk" = false.
Proof. repeat split; reflexivity. Qed.

(** C3. The matcher does not accept exactly the paths of the rule in the
    specification: [/favicon-icons] starts with none of [api], [_next]
    and [static], has no dot and is not [favicon.ico], so the rule
    intercepts it, but the unescaped dot of [favicon.ico] in the pattern
    makes the lookahead exclude it and the middleware never runs there. *)
Theorem config_matcher_skips_favicon_like_page :
  spec_intercepts "/favicon-icons" = true
  /\ config_matches "/favicon-icons" = false.
Proof. split; reflexivity. Qed.

(** ** The middleware *)

Section MiddlewareProperties.

Context {World : Type}.
Variable getToken : GetTokenParams.t -> async World (option JWT.t).

(** The middleware settles the way [getToken] does and leaves the world
    as [getToken] left it. *)
Lemma middleware_unfold (env : gmap string string) (request : NextRequest.t)
    (w : World) :
  middleware getToken env request w =
  match getToken {| GetTokenParams.req := request;
                    GetTokenParams.secret := env !! "NEXTAUTH_SECRET" |} w with
  | (fulfilled None, w') =>
      (fulfilled (NextResponse.redirect
                    (URL.new "/api/auth/signin" (NextRequest.url request))), w')
  | (fulfilled (Some _), w') => (fulfilled NextResponse.next, w')
  | (rejected e, w') => (rejected e, w')
  end.
Proof.
  unfold middleware, bind.
  destruct (getToken _ w) as [[[t|]|e] w']; reflexivity.
Qed.

(** X5. When [getToken] rejects, the middleware rejects with the same
    error and builds no response. *)
Lemma middleware_rejects (env : gmap string string) (request : NextRequest.t)
    (w w' : World) (e : string) :
  getToken {| GetTokenParams.req := request;
              GetTokenParams.secret := env !! "NEXTAUTH_SECRET" |} w
  = (rejected e, w') ->
  middleware getToken env request w = (rejected e, w').
Proof. intros H. now rewrite middleware_unfold, H. Qed.

End MiddlewareProperties.

(** C1. Whenever [getToken] yields its answer for a request, the
    middleware answers with a response; that response is the redirect to
    [/api/auth/signin] resolved against the request's URL if and only if
    the answer was no token, and it is [NextResponse.next()] if and only
    if a token was present. *)
Theorem middleware_redirects_iff_no_token
    (World : Type)
    (getToken : GetTokenParams.t -> async World (option JWT.t))
    (env : gmap string string) (request : NextRequest.t)
    (w w' : World) (token : option JWT.t) :
  getToken {| GetTokenParams.req := request;
              GetTokenParams.secret := env !! "NEXTAUTH_SECRET" |} w
  = (fulfilled token, w') ->
  exists response : NextResponse.t,
    middleware getToken env request w = (fulfilled response, w')
    /\ (response
        = NextResponse.redirect
            (URL.new "/api/auth/signin" (NextRequest.url request))
        <-> token = None)
    /\ ((exists url, response = NextResponse.redirect url) <-> token = None)
    /\ (response = NextResponse.next <-> is_Some token).
Proof.
  intros Hget. rewrite middleware_unfold, Hget.
  destruct token as [t|]; eexists; (split; [reflexivity|]);
    (split; [|split]); split; intros H;
    try done; try (inversion H; done); eauto.
Qed.

(** C7. Two runs of the middleware, in any two worlds, environments and
    library states, on requests with the same URL for which [getToken]
    agrees on the presence of a token, give the same response. *)
Theorem middleware_response_determined
    (World1 World2 : Type)
    (getToken1 : GetTokenParams.t -> async World1 (option JWT.t))
    (getToken2 : GetTokenParams.t -> async World2 (option JWT.t))
    (env1 env2 : gmap string string) (request1 request2 : NextRequest.t)
    (w1 w1' : World1) (w2 w2' : World2) (token1 token2 : option JWT.t) :
  getToken1 {| GetTokenParams.req := request1;
               GetTokenParams.secret := env1 !! "NEXTAUTH_SECRET" |} w1
  = (fulfilled token1, w1') ->
  getToken2 {| GetTokenParams.req := request2;
               GetTokenParams.secret := env2 !! "NEXTAUTH_SECRET" |} w2
  = (fulfilled token2, w2') ->
  NextRequest.url request1 = NextRequest.url request2 ->
  (is_Some token1 <-> is_Some token2) ->
  fst (middleware getToken1 env1 request1 w1)
  = fst (middleware getToken2 env2 request2 w2).
Proof.
  intros H1 H2 Hurl Htok. rewrite !middleware_unfold, H1, H2, Hurl.
  destruct token1 as [t1|], token2 as [t2|]; try reflexivity.
  - destruct Htok as [Htok _]. destruct Htok as [? ?]; [eauto|done].
  - destruct Htok as [_ Htok]. destruct Htok as [? ?]; [eauto|done].
Qed.

(** C5. [getSession] settles exactly as [getServerSession(authOptions)]
    does, with the same value or error and the same effect on the world. *)
Theorem getSession_call_through
    (World : Type)
    (getServerSession : NextAuthOptions.t -> async World (option Session.t))
    (env : gmap string string) (w : World) :
  getSession getServerSession env w = getServerSession (authOptions env) w.
Proof.
  unfold getSession, bind, ret.
  destruct (getServerSession (authOptions env) w) as [[r|e] w']; reflexivity.
Qed.

(** ** The session callback *)

(** A readable session is a session object whose user reference, if it
    has one, leads to a user object. *)
Lemma read_Some (h : Store.t) (l : ref) (s : Session.t) :
  Store.read h l = Some s ->
  exists o : Store.session_object,
    Store.sessions h !! l = Some o
    /\ Session.expires s = Store.expires o
    /\ match Store.user o with
       | Some lu => exists u, Store.users h !! lu = Some u
                              /\ Session.user s = Some u
       | None => Session.user s = None
       end.
Proof.
  unfold Store.read. destruct (Store.sessions h !! l) as [o|]; [|done].
  destruct (Store.user o) as [lu|] eqn:Hlu.
  - destruct (Store.users h !! lu) as [u|] eqn:E; [|done].
    intros [= <-]. exists o. rewrite Hlu, E. eauto.
  - intros [= <-]. exists o. rewrite Hlu. eauto.
Qed.

(** The callback, case by case. *)
Lemma session_writes (h : Store.t) (l lu : ref) (tok : JWT.t)
    (o : Store.session_object) (u : User.t) :
  Store.sessions h !! l = Some o ->
  Store.user o = Some lu ->
  Store.users h !! lu = Some u ->
  Js.truthy (JWT.sub tok) = true ->
  session {| SessionParams.session := l; SessionParams.token := tok |} h
  = (fulfilled l,
     {| Store.sessions := Store.sessions h;
        Store.users := <[lu := User.with_id (JWT.sub tok) u]> (Store.users h) |}).
Proof.
  intros Ho Hlu Hu Ht.
  unfold session, Store.get_user, Store.set_id, bind, get, put, ret.
  simpl. now rewrite Ho, Hlu, Ht, Hu.
Qed.

Lemma session_skips (h : Store.t) (l : ref) (tok : JWT.t)
    (o : Store.session_object) :
  Store.sessions h !! l = Some o ->
  Store.user o = None \/ Js.truthy (JWT.sub tok) = false ->
  session {| SessionParams.session := l; SessionParams.token := tok |} h
  = (fulfilled l, h).
Proof.
  intros Ho Hskip. unfold session, Store.get_user, bind, get, ret.
  simpl. rewrite Ho. destruct (Store.user o) as [lu|]; [|done].
  destruct Hskip as [Hskip | ->]; done.
Qed.

Lemma truthy_Some (v : option string) :
  Js.truthy v = true <-> exists x, v = Some x /\ x <> "".
Proof.
  destruct v as [[|c x]|]; simpl; split; try done.
  - intros [x [[= <-] Hx]]. done.
  - eauto.
  - intros [x [? ?]]. done.
Qed.

(** C2, as amended. When [session.user] is present and [token.sub] is
    present and not the empty string, the callback returns the session
    it was given, and that session's [user.id] is [token.sub]. *)
Theorem session_copies_sub (h : Store.t) (params : SessionParams.t)
    (s : Session.t) (u : User.t) (x : string) :
  Store.read h (SessionParams.session params) = Some s ->
  Session.user s = Some u ->
  JWT.sub (SessionParams.token params) = Some x ->
  x <> "" ->
  exists (h' : Store.t) (s' : Session.t) (u' : User.t),
    session params h = (fulfilled (SessionParams.session params), h')
    /\ Store.read h' (SessionParams.session params) = Some s'
    /\ Session.user s' = Some u'
    /\ User.id u' = JWT.sub (SessionParams.token params).
Proof.
  destruct params as [l tok]. simpl.
  intros (o & Ho & _ & Hu)%read_Some Hs Hsub Hx.
  destruct (Store.user o) as [lu|] eqn:Hlu; [|congruence].
  destruct Hu as (u0 & Hu0 & _).
  assert (Ht : Js.truthy (JWT.sub tok) = true)
    by (apply truthy_Some; eauto).
  eexists _, _, _. split; [by eapply session_writes|].
  unfold Store.read. simpl. rewrite Ho, Hlu, lookup_insert_eq. done.
Qed.

(** C2, as stated, fails when [token.sub] is present but empty: the
    empty string is falsy, the guard skips the assignment, and the
    [user.id] of the returned session stays absent. *)
Lemma session_empty_sub_not_copied :
  Store.read Sample.store 1%positive = Some Sample.session
  /\ Session.user Sample.session = Some Sample.user
  /\ JWT.sub (Sample.token (Some "")) = Some ""
  /\ ~ (exists (h' : Store.t) (s' : Session.t) (u' : User.t),
          session (Sample.params (Some "")) Sample.store
          = (fulfilled 1%positive, h')
          /\ Store.read h' 1%positive = Some s'
          /\ Session.user s' = Some u'
          /\ User.id u' = JWT.sub (Sample.token (Some ""))).
Proof.
  do 3 (split; [reflexivity|]).
  intros (h' & s' & u' & Hrun & Hread & Huser & Hid).
  assert (Hskip : session (Sample.params (Some "")) Sample.store
                  = (fulfilled 1%positive, Sample.store)) by reflexivity.
  rewrite Hskip in Hrun. injection Hrun as <-.
  assert (Hs : Store.read Sample.store 1%positive = Some Sample.session)
    by reflexivity.
  rewrite Hs in Hread. injection Hread as <-.
  injection Huser as <-. discriminate Hid.
Qed.

(** C8. The callback returns the session it was given. Its [expires] and
    every property of its user but [id] are as before, no session object
    changes and no user object but this session's own. When
    [session.user] or [token.sub] is absent, nothing changes at all. *)
Theorem session_frame (h : Store.t) (params : SessionParams.t) (s : Session.t) :
  Store.read h (SessionParams.session params) = Some s ->
  exists (h' : Store.t) (s' : Session.t),
    session params h = (fulfilled (SessionParams.session params), h')
    /\ Store.read h' (SessionParams.session params) = Some s'
    /\ Session.expires s' = Session.expires s
    /\ User.with_id None <$> Session.user s'
       = User.with_id None <$> Session.user s
    /\ Store.sessions h' = Store.sessions h
    /\ (forall lu : ref,
          Store.user <$> Store.sessions h !! SessionParams.session params
          <> Some (Some lu) ->
          Store.users h' !! lu = Store.users h !! lu)
    /\ (Session.user s = None \/ JWT.sub (SessionParams.token params) = None ->
        h' = h /\ s' = s).
Proof.
  destruct params as [l tok]. simpl. intros Hread.
  destruct (read_Some _ _ _ Hread) as (o & Ho & He & Hu).
  destruct (Store.user o) as [lu|] eqn:Hlu.
  - destruct Hu as (u & Hu & Hs).
    destruct (Js.truthy (JWT.sub tok)) eqn:Ht.
    + eexists _, _. split; [by eapply session_writes|].
      split; [unfold Store.read; simpl;
              rewrite Ho, Hlu, lookup_insert_eq; reflexivity|].
      simpl. rewrite Hs, He, Ho. simpl.
      do 3 (split; [done|]). split.
      * intros lu' Hne. apply lookup_insert_ne. congruence.
      * intros [Hnone | Hsub]; [done|]. now rewrite Hsub in Ht.
    + exists h, s. rewrite Ho. simpl.
      split; [eapply session_skips; eauto|]. repeat split; done.
  - exists h, s. rewrite Ho. simpl.
    split; [eapply session_skips; eauto|]. repeat split; done.
Qed.

(** ** The options *)

Lemma or_else_empty (v : option string) :
  Js.or_else v "" = match v with Some x => x | None => "" end.
Proof. now destruct v as [[|c x]|]. Qed.








(** C9. For every environment the provider is built, and each of its
    three options is the variable's value, or the empty string when the
    variable is unset. *)
Theorem authOptions_provider_defaults (env : gmap string string) :
  exists options : AzureADOptions.t,
    NextAuthOptions.providers (authOptions env) = [ AzureADProvider options ]
    /\ AzureADOptions.clientId options
       = match env !! "AZURE_AD_CLIENT_ID" with Some v => v | None => "" end
    /\ AzureADOptions.clientSecret options
       = match env !! "AZURE_AD_CLIENT_SECRET" with Some v => v | None => "" end
    /\ AzureADOptions.tenantId options
       = match env !! "AZURE_AD_TENANT_ID" with Some v => v | None => "" end.
Proof.
  eexists. split; [reflexivity|]. simpl. rewrite !or_else_empty. done.
Qed.

(** ** The profile component *)


(** C10. [UserProfile] renders one of three views, picked in this order:
    "Loading..." when the status is loading, with or without a session;
    "You are not logged in." when it is not loading and there is no
    session; the welcome otherwise. The three conditions exclude one
    another and cover every case, and the three views differ. *)
Theorem UserProfile_three_views (useSession : unit -> SessionContextValue.t) :
  let status := SessionContextValue.status (useSession tt) in
  let session := SessionContextValue.data (useSession tt) in
  let view := UserProfile useSession in
  let Loading := element "p" [text "Loading..."] in
  let NotLoggedIn := element "p" [text "You are not logged in."] in
  let Welcome := fun s : Session.t =>
    element "div" [text "Welcome, "; expr (user_name s); text "!"] in
  ((status = loading /\ view = Loading)
   \/ (status <> loading /\ session = None /\ view = NotLoggedIn)
   \/ (status <> loading /\ exists s, session = Some s /\ view = Welcome s))
  /\ Loading <> NotLoggedIn
  /\ (forall s, Welcome s <> Loading)
  /\ (forall s, Welcome s <> NotLoggedIn).
Proof.
  unfold UserProfile. split; [|by repeat split].
  destruct (SessionContextValue.status (useSession tt)); [by left | |];
    right; (destruct (SessionContextValue.data (useSession tt)) as [s|];
            [right; split; [done|eauto] | left; done]).
Qed.

(** X6. The response as a function of the token's presence and the
    URL. *)
Lemma middleware_response_function :
  exists f : bool -> URL.t -> NextResponse.t,
    forall (World : Type)
      (getToken : GetTokenParams.t -> async World (option JWT.t))
      (env : gmap string string) (request : NextRequest.t)
      (w w' : World) (token : option JWT.t),
      getToken {| GetTokenParams.req := request;
                  GetTokenParams.secret := env !! "NEXTAUTH_SECRET" |} w
      = (fulfilled token, w') ->
      middleware getToken env request w
      = (fulfilled (f (bool_decide (is_Some token)) (NextRequest.url request)),
         w').
Proof.
  exists (fun (present : bool) (url : URL.t) =>
            if present then NextResponse.next
            else NextResponse.redirect (URL.new "/api/auth/signin" url)).
  intros World getToken env request w w' token Hget.
  rewrite middleware_unfold, Hget. now destruct token.
Qed.

(** ** The properties at the sample values *)

Lemma middleware_redirects_iff_no_token_witness :
  Sample.no_token
    {| GetTokenParams.req := Sample.request;
       GetTokenParams.secret := Sample.env !! "NEXTAUTH_SECRET" |} tt
  = (fulfilled None, tt)
  /\ exists response : NextResponse.t,
       middleware Sample.no_token Sample.env Sample.request tt
       = (fulfilled response, tt)
       /\ (response
           = NextResponse.redirect
               (URL.new "/api/auth/signin" (NextRequest.url Sample.request))
           <-> None = (None : option JWT.t))
       /\ ((exists url, response = NextResponse.redirect url)
           <-> None = (None : option JWT.t))
       /\ (response = NextResponse.next <-> is_Some (None : option JWT.t)).
Proof.
  split; [reflexivity|].
  apply (middleware_redirects_iff_no_token unit Sample.no_token Sample.env
           Sample.request tt tt None).
  reflexivity.
Defined.

Lemma middleware_response_determined_witness :
  NextRequest.url Sample.request = NextRequest.url Sample.other_request
  /\ fst (middleware Sample.some_token Sample.env Sample.request 0)
     = fst (middleware Sample.some_token ∅ Sample.other_request 5).
Proof.
  split; [reflexivity|].
  apply (middleware_response_determined nat nat
           Sample.some_token Sample.some_token Sample.env ∅
           Sample.request Sample.other_request 0 1 5 6
           (Some (Sample.token (Some "42"))) (Some (Sample.token (Some "42"))));
    reflexivity.
Defined.

Lemma session_copies_sub_witness :
  Store.read Sample.store 1%positive = Some Sample.session
  /\ exists (h' : Store.t) (s' : Session.t) (u' : User.t),
       session (Sample.params (Some "42")) Sample.store
       = (fulfilled 1%positive, h')
       /\ Store.read h' 1%positive = Some s'
       /\ Session.user s' = Some u'
       /\ User.id u' = Some "42".
Proof.
  split; [reflexivity|].
  apply (session_copies_sub Sample.store (Sample.params (Some "42"))
           Sample.session Sample.user "42");
    [reflexivity | reflexivity | reflexivity | discriminate].
Defined.

Lemma session_frame_witness :
  Store.read Sample.store 1%positive = Some Sample.session
  /\ exists (h' : Store.t) (s' : Session.t),
       session (Sample.params (Some "42")) Sample.store
       = (fulfilled 1%positive, h')
       /\ Store.read h' 1%positive = Some s'
       /\ Session.expires s' = Session.expires Sample.session
       /\ User.with_id None <$> Session.user s'
          = User.with_id None <$> Session.user Sample.session
       /\ Store.sessions h' = Store.sessions Sample.store
       /\ (forall lu : ref,
             Store.user <$> Store.sessions Sample.store !! 1%positive
             <> Some (Some lu) ->
             Store.users h' !! lu = Store.users Sample.store !! lu)
       /\ (Session.user Sample.session = None
           \/ JWT.sub (Sample.token (Some "42")) = None ->
           h' = Sample.store /\ s' = Sample.session).
Proof.
  split; [reflexivity|].
  apply (session_frame Sample.store (Sample.params (Some "42")) Sample.session).
  reflexivity.
Defined.


Lemma config_matches_sound_witness :
  config_matches "/dashboard" = true /\ spec_intercepts "/dashboard" = true.
Proof.
  split; [reflexivity|].
  apply (config_matches_sound "/dashboard"); reflexivity.
Defined.

Lemma config_excludes_witness :
  config_matches "/api/auth/signin" = false.
Proof.
  apply (config_excludes "api/auth/signin"). left. reflexivity.
Defined.

Lemma middleware_rejects_witness :
  middleware Sample.broken Sample.env Sample.request tt
  = (rejected "JWEInvalid", tt).
Proof.
  apply (middleware_rejects Sample.broken Sample.env Sample.request tt tt).
  reflexivity.
Defined.

Lemma config_matches_complete_witness :
  config_matches "/settings/profile" = spec_intercepts "/settings/profile".
Proof.
  apply (config_matches_complete "/" "settings/profile"); reflexivity.
Defined.

(** ** More on the session callback *)

Lemma with_id_twice (v w : option string) (u : User.t) :
  User.with_id v (User.with_id w u) = User.with_id v u.
Proof. reflexivity. Qed.

(** X8. Running the callback a second time on the store it left, with
    the same argument, settles the same way and changes nothing more. *)
Theorem session_idempotent (params : SessionParams.t) (h : Store.t) :
  session params (snd (session params h)) = session params h.
Proof.
  destruct params as [l tok].
  unfold session, Store.get_user, Store.set_id, bind, get, put, throw, ret.
  simpl.
  destruct (Store.sessions h !! l) as [o|] eqn:Ho; simpl;
    [|by rewrite ?Ho].
  destruct (Store.user o) as [lu|] eqn:Hlu; simpl;
    [|by rewrite ?Ho, ?Hlu].
  destruct (Js.truthy (JWT.sub tok)) eqn:Ht; simpl;
    [|by rewrite ?Ho, ?Hlu, ?Ht].
  destruct (Store.users h !! lu) as [u|] eqn:Hu; simpl.
  - rewrite ?Ho, ?Hlu, ?Ht. simpl. rewrite lookup_insert_eq. simpl.
    by rewrite insert_insert_eq, with_id_twice.
  - by rewrite ?Ho, ?Hlu, ?Ht, ?Hu.
Qed.

(** X9. The user object is shared, not copied: when two session objects
    hold the same user object and the callback runs for one of them, the
    other session shows the new [id] as well. *)
Theorem session_shared_user (h : Store.t) (l l2 lu : ref) (tok : JWT.t)
    (o o2 : Store.session_object) (u : User.t) :
  Store.sessions h !! l = Some o ->
  Store.sessions h !! l2 = Some o2 ->
  Store.user o = Some lu ->
  Store.user o2 = Some lu ->
  Store.users h !! lu = Some u ->
  Js.truthy (JWT.sub tok) = true ->
  exists h' : Store.t,
    session {| SessionParams.session := l; SessionParams.token := tok |} h
    = (fulfilled l, h')
    /\ Store.read h' l2
       = Some {| Session.user := Some (User.with_id (JWT.sub tok) u);
                 Session.expires := Store.expires o2 |}.
Proof.
  intros Ho Ho2 Hlu Hlu2 Hu Ht. eexists. split.
  - by eapply session_writes.
  - unfold Store.read. simpl. by rewrite Ho2, Hlu2, lookup_insert_eq.
Qed.

(** X10. Whatever the callback does, every session that could be read
    before can be read afterwards: no session object is removed and no
    user object that a session refers to disappears. *)
Theorem session_keeps_readable (params : SessionParams.t) (h : Store.t)
    (l : ref) :
  is_Some (Store.read h l) ->
  is_Some (Store.read (snd (session params h)) l).
Proof.
  destruct params as [l0 tok].
  unfold session, Store.get_user, Store.set_id, bind, get, put, throw, ret.
  simpl.
  destruct (Store.sessions h !! l0) as [o0|]; simpl; [|done].
  destruct (Store.user o0) as [lu0|]; simpl; [|done].
  destruct (Js.truthy (JWT.sub tok)); simpl; [|done].
  destruct (Store.users h !! lu0) as [u0|] eqn:Hu0; simpl; [|done].
  unfold Store.read. simpl.
  destruct (Store.sessions h !! l) as [o|]; [|done].
  destruct (Store.user o) as [lu|]; [|done].
  destruct (decide (lu0 = lu)) as [->|Hne].
  - rewrite lookup_insert_eq. eauto.
  - by rewrite lookup_insert_ne.
Qed.

(** ** More on the options *)

(** X11. For the three provider variables an empty value and no value
    are the same thing to [authOptions]; the signing secret is passed as
    it is, so an empty secret arrives as the empty string and a missing
    one as [undefined]. *)
Theorem authOptions_empty_is_unset (env : gmap string string) :
  (forall k : string,
     k ∈ [ "AZURE_AD_CLIENT_ID"; "AZURE_AD_CLIENT_SECRET"; "AZURE_AD_TENANT_ID" ] ->
     authOptions (<[ k := "" ]> env) = authOptions (delete k env))
  /\ NextAuthOptions.secret (authOptions (<[ "NEXTAUTH_SECRET" := "" ]> env))
     = Some ""
  /\ NextAuthOptions.secret (authOptions (delete "NEXTAUTH_SECRET" env))
     = None.
Proof.
  split; [|split].
  - intros k Hk. unfold authOptions.
    repeat (apply elem_of_cons in Hk as [-> | Hk]);
      [| | |by apply elem_of_nil in Hk];
      rewrite ?lookup_insert_eq, ?lookup_delete_eq;
      rewrite ?lookup_insert_ne, ?lookup_delete_ne by done;
      reflexivity.
  - simpl. apply lookup_insert_eq.
  - simpl. apply lookup_delete_eq.
Qed.

(** ** More on the middleware *)

(** X12. A redirect of the middleware stays on the origin of the request
    and always leads to [/api/auth/signin] with no query and no
    fragment: the path, query and fragment that were asked for are not
    carried along. *)
Theorem middleware_redirect_same_origin
    (World : Type)
    (getToken : GetTokenParams.t -> async World (option JWT.t))
    (env : gmap string string) (request : NextRequest.t)
    (w w' : World) (location : URL.t) :
  middleware getToken env request w
  = (fulfilled (NextResponse.redirect location), w') ->
  URL.protocol location = URL.protocol (NextRequest.url request)
  /\ URL.username location = URL.username (NextRequest.url request)
  /\ URL.password location = URL.password (NextRequest.url request)
  /\ URL.hostname location = URL.hostname (NextRequest.url request)
  /\ URL.port location = URL.port (NextRequest.url request)
  /\ URL.pathname location = "/api/auth/signin"
  /\ URL.search location = ""
  /\ URL.hash location = "".
Proof.
  rewrite middleware_unfold.
  destruct (getToken _ w) as [[[t|]|e] w'']; intros [= <- _]; try done.
Qed.

(** X13. The middleware never sends a visitor to a page that it guards
    itself: the location of its redirect is not matched by
    [config.matcher], so the sign-in page is served without a token and
    the redirect cannot loop. *)
Theorem middleware_redirect_not_intercepted
    (World : Type)
    (getToken : GetTokenParams.t -> async World (option JWT.t))
    (env : gmap string string) (request : NextRequest.t)
    (w w' : World) (location : URL.t) :
  middleware getToken env request w
  = (fulfilled (NextResponse.redirect location), w') ->
  config_matches (URL.pathname location) = false.
Proof.
  rewrite middleware_unfold.
  destruct (getToken _ w) as [[[t|]|e] w'']; intros [= <- _]; try done.
Qed.

(** ** The home page *)

(** X14. When [getServerSession] yields its answer, [HomePage] renders
    the request to log in exactly when the answer is no session, and
    otherwise the very element that [UserProfile] shows for that session
    once it has loaded. *)
Theorem HomePage_outcome
    (World : Type)
    (getServerSession : NextAuthOptions.t -> async World (option Session.t))
    (env : gmap string string) (w w' : World) (answer : option Session.t) :
  getServerSession (authOptions env) w = (fulfilled answer, w') ->
  exists page : ReactNode,
    HomePage getServerSession env w = (fulfilled page, w')
    /\ (textContent page = "You must be logged in to access this page."
        <-> answer = None)
    /\ (forall (s : Session.t) (status : Status),
          answer = Some s ->
          status <> loading ->
          page = UserProfile
                   (fun _ => {| SessionContextValue.data := Some s;
                                SessionContextValue.status := status |})).
Proof.
  intros Hget. unfold HomePage, getSession, bind, ret. rewrite Hget.
  destruct answer as [s|]; eexists; (split; [reflexivity|]); split.
  - split; [|done]. simpl. intros Htext. discriminate Htext.
  - intros s' status [= <-] Hstatus. by destruct status.
  - done.
  - intros s status Hs. discriminate Hs.
Qed.

(** ** The layout *)

Lemma append_empty_r (s : string) : s +:+ "" = s.
Proof.
  induction s as [|c s IH]; [done|].
  change (String c s +:+ "") with (String c (s +:+ "")). by rewrite IH.
Qed.

Lemma append_associative (a b c : string) :
  (a +:+ b) +:+ c = a +:+ (b +:+ c).
Proof.
  induction a as [|x a IH]; [done|].
  change ((String x a +:+ b) +:+ c) with (String x ((a +:+ b) +:+ c)).
  by rewrite IH.
Qed.

Section LayoutProperties.

Context {World : Type}.
Implicit Types (t : Tree World) (ts : list (Tree World)).
Implicit Types (v x : SessionContextValue.t).

Lemma mount_Host v (context : option SessionContextValue.t) (tag : string)
    (attrs : list (string * string)) (h : option (async World unit)) ts :
  mount v context (Host tag attrs h ts) = mount_children v context ts.
Proof.
  unfold mount_children. simpl.
  induction ts as [|t ts IH]; simpl; [done|]. by rewrite IH.
Qed.

Lemma mount_SessionProvider v (context : option SessionContextValue.t) ts :
  mount v context (SessionProvider ts) = mount_children v (Some v) ts.
Proof.
  unfold mount_children. simpl.
  induction ts as [|t ts IH]; simpl; [done|]. by rewrite IH.
Qed.

Lemma mount_children_cons v (context : option SessionContextValue.t) t ts :
  mount_children v context (t :: ts)
  = match mount v context t, mount_children v context ts with
    | Some a, Some b => Some (a +:+ b)
    | _, _ => None
    end.
Proof. reflexivity. Qed.

(** Induction on trees, with the hypothesis for every child. *)
Lemma Tree_nested_ind (P : Tree World -> Prop) :
  (forall tag attrs h ts, Forall P ts -> P (Host tag attrs h ts)) ->
  (forall s, P (Txt s)) ->
  (forall ts, Forall P ts -> P (SessionProvider ts)) ->
  (forall c, P (WithSession c)) ->
  forall t, P t.
Proof.
  intros HHost HTxt HProvider HWith. fix IH 1.
  intros [tag attrs h ts | s | ts | c].
  - apply HHost. induction ts as [|t ts IHts]; constructor; [apply IH|exact IHts].
  - apply HTxt.
  - apply HProvider.
    induction ts as [|t ts IHts]; constructor; [apply IH|exact IHts].
  - apply HWith.
Qed.

(** Below a provider every tree mounts. *)
Lemma mount_provided v t : forall x, is_Some (mount v (Some x) t).
Proof.
  induction t as [tag attrs h ts IH | s | ts IH | c] using Tree_nested_ind;
    intros x; [| by eexists | | by eexists].
  - rewrite mount_Host.
    induction IH as [|t ts Ht _ IHts]; [by eexists|].
    rewrite mount_children_cons.
    destruct (Ht x) as [a ->], IHts as [b ->]. by eexists.
  - rewrite mount_SessionProvider.
    induction IH as [|t ts Ht _ IHts]; [by eexists|].
    rewrite mount_children_cons.
    destruct (Ht v) as [a ->], IHts as [b ->]. by eexists.
Qed.

Lemma mount_children_provided v x ts :
  is_Some (mount_children v (Some x) ts).
Proof.
  induction ts as [|t ts IH]; [by eexists|].
  rewrite mount_children_cons.
  destruct (mount_provided v t x) as [a ->], IH as [b ->]. by eexists.
Qed.

Lemma mount_children_None v (context : option SessionContextValue.t) t ts :
  mount_children v context (t :: ts) = None
  <-> mount v context t = None \/ mount_children v context ts = None.
Proof.
  rewrite mount_children_cons.
  destruct (mount v context t), (mount_children v context ts);
    split; intros H; try done; try (destruct H as [H | H]; done); eauto.
Qed.

(** With no provider above it, a tree fails to mount exactly when one of
    its components needs the session. *)
Lemma mount_unprovided v t :
  mount v None t = None <-> needs_session t = true.
Proof.
  induction t as [tag attrs h ts IH | s | ts IH | c] using Tree_nested_ind;
    [| done | | done].
  - rewrite mount_Host. simpl.
    induction IH as [|t ts Ht _ IHts]; [done|].
    rewrite mount_children_None. simpl.
    by rewrite orb_true_iff, <- IHts, <- Ht.
  - rewrite mount_SessionProvider. simpl.
    destruct (mount_children_provided v v ts) as [a ->]. done.
Qed.

Lemma mount_children_unprovided v ts :
  mount_children v None ts = None <-> existsb needs_session ts = true.
Proof.
  induction ts as [|t ts IH]; [done|].
  rewrite mount_children_None. simpl.
  by rewrite orb_true_iff, <- IH, <- mount_unprovided.
Qed.

End LayoutProperties.

(** X15. [RootLayout] mounts whatever page it is given and whatever the
    session provider holds: the page is below the provider too. What it
    shows is the profile line, then "Logout" (in every state, also while
    loading and when nobody is logged in), then the page. *)
Theorem RootLayout_mounts
    (World : Type) (signOut : SignOutParams.t -> async World unit)
    (inter_className : string) (value : SessionContextValue.t)
    (children : list (Tree World)) :
  exists page : string,
    mount_children value (Some value) children = Some page
    /\ mount value None (RootLayout signOut inter_className children)
       = Some (textContent (UserProfile (fun _ => value))
               +:+ "Logout" +:+ page).
Proof.
  destruct (mount_children_provided value value children) as [page Hpage].
  exists page. split; [exact Hpage|].
  unfold RootLayout, Wrapper, LogoutButton.
  rewrite !mount_Host, !mount_children_cons, !mount_Host,
    !mount_children_cons, mount_SessionProvider, !mount_children_cons,
    !mount_Host, !mount_children_cons, !mount_Host, Hpage.
  simpl. by rewrite !append_empty_r, append_associative.
Qed.

(** X16. [RootLayout] as the guide prints it keeps the page outside the
    provider: it mounts exactly when no component of the page needs the
    session, whatever the provider holds. *)
Theorem guide_RootLayout_mounts_iff
    (World : Type) (signOut : SignOutParams.t -> async World unit)
    (inter_className : string) (value : SessionContextValue.t)
    (children : list (Tree World)) :
  is_Some (mount value None (guide_RootLayout signOut inter_className children))
  <-> existsb needs_session children = false.
Proof.
  rewrite <- not_true_iff_false, <- (mount_children_unprovided value).
  unfold guide_RootLayout, Wrapper, LogoutButton.
  rewrite !mount_Host, !mount_children_cons, !mount_Host,
    !mount_children_cons, !mount_Host, !mount_children_cons,
    mount_SessionProvider, !mount_children_cons, !mount_Host.
  simpl. destruct (mount_children value None children) as [page|].
  - split; [done|]. intros _. by eexists.
  - split; [intros [x Hx]; discriminate Hx | intros Hne; by destruct Hne].
Qed.

(** X17. The layout adds one click handler, the one of the logout
    button. A click calls [signOut] once, with the callback URL [/], and
    the handler returns normally even when [signOut] fails: nothing
    awaits or catches the promise. *)
Theorem RootLayout_logout
    (inter_className : string)
    (children : list (Tree (list SignOutParams.t)))
    (fails : bool) (log : list SignOutParams.t) :
  handlers (RootLayout (recording_signOut fails) inter_className children)
  = handleLogout (recording_signOut fails)
    :: List.concat (List.map handlers children)
  /\ handleLogout (recording_signOut fails) log
     = (fulfilled tt,
        (log ++ [ {| SignOutParams.callbackUrl := Some "/" |} ])%list).
Proof.
  split; [|reflexivity].
  simpl. by rewrite !app_nil_r.
Qed.

(** A page that reads the session mounts in the layout of the
    application and not in the layout of the guide. *)
Example layouts_differ_on_profile_page :
  mount Sample.useSession_value None
    (RootLayout (recording_signOut false) "inter" Sample.profile_page)
  = Some "Welcome, Ada!LogoutWelcome, Ada!"
  /\ mount Sample.useSession_value None
       (guide_RootLayout (recording_signOut false) "inter" Sample.profile_page)
     = None.
Proof. split; reflexivity. Qed.

Lemma session_shared_user_witness :
  exists h' : Store.t,
    session {| SessionParams.session := 1%positive;
               SessionParams.token := Sample.token (Some "42") |}
      Sample.shared_store
    = (fulfilled 1%positive, h')
    /\ Store.read h' 3%positive
       = Some {| Session.user :=
                   Some (User.with_id (Some "42") Sample.user);
                 Session.expires := "2031-06-30T12:00:00.000Z" |}.
Proof.
  apply (session_shared_user Sample.shared_store 1%positive 3%positive
           2%positive (Sample.token (Some "42"))
           {| Store.user := Some 2%positive;
              Store.expires := "2030-01-01T00:00:00.000Z" |}
           {| Store.user := Some 2%positive;
              Store.expires := "2031-06-30T12:00:00.000Z" |}
           Sample.user);
    reflexivity.
Defined.

Lemma session_keeps_readable_witness :
  Store.read Sample.shared_store 3%positive
  = Some {| Session.user := Some Sample.user;
            Session.expires := "2031-06-30T12:00:00.000Z" |}
  /\ is_Some
       (Store.read
          (snd (session (Sample.params (Some "42")) Sample.shared_store))
          3%positive).
Proof.
  split; [reflexivity|].
  apply (session_keeps_readable (Sample.params (Some "42"))
           Sample.shared_store 3%positive).
  eexists. reflexivity.
Defined.

Lemma middleware_redirect_same_origin_witness :
  URL.protocol (URL.new "/api/auth/signin" Sample.url) = "https:"
  /\ URL.username (URL.new "/api/auth/signin" Sample.url) = ""
  /\ URL.password (URL.new "/api/auth/signin" Sample.url) = ""
  /\ URL.hostname (URL.new "/api/auth/signin" Sample.url) = "app.example.com"
  /\ URL.port (URL.new "/api/auth/signin" Sample.url) = ""
  /\ URL.pathname (URL.new "/api/auth/signin" Sample.url) = "/api/auth/signin"
  /\ URL.search (URL.new "/api/auth/signin" Sample.url) = ""
  /\ URL.hash (URL.new "/api/auth/signin" Sample.url) = "".
Proof.
  apply (middleware_redirect_same_origin unit Sample.no_token Sample.env
           Sample.request tt tt (URL.new "/api/auth/signin" Sample.url)).
  reflexivity.
Defined.

Lemma middleware_redirect_not_intercepted_witness :
  middleware Sample.no_token Sample.env Sample.request tt
  = (fulfilled (NextResponse.redirect (URL.new "/api/auth/signin" Sample.url)),
     tt)
  /\ config_matches (URL.pathname (URL.new "/api/auth/signin" Sample.url))
     = false.
Proof.
  split; [reflexivity|].
  apply (middleware_redirect_not_intercepted unit Sample.no_token Sample.env
           Sample.request tt tt (URL.new "/api/auth/signin" Sample.url)).
  reflexivity.
Defined.

Lemma HomePage_outcome_witness :
  exists page : ReactNode,
    HomePage Sample.session_found Sample.env tt = (fulfilled page, tt)
    /\ (textContent page = "You must be logged in to access this page."
        <-> Some Sample.session = None)
    /\ (forall (s : Session.t) (status : Status),
          Some Sample.session = Some s ->
          status <> loading ->
          page = UserProfile
                   (fun _ => {| SessionContextValue.data := Some s;
                                SessionContextValue.status := status |})).
Proof.
  apply (HomePage_outcome unit Sample.session_found Sample.env tt tt
           (Some Sample.session)).
  reflexivity.
Defined.

(** X18. The callback overwrites: after a run for a session with one
    token, a run for the same session with a token whose [sub] is not
    empty leaves the store exactly as if only the second run had
    happened. *)
Theorem session_last_token_wins (l : ref) (first second : JWT.t)
    (h : Store.t) :
  Js.truthy (JWT.sub second) = true ->
  session {| SessionParams.session := l; SessionParams.token := second |}
    (snd (session {| SessionParams.session := l;
                     SessionParams.token := first |} h))
  = session {| SessionParams.session := l; SessionParams.token := second |} h.
Proof.
  intros Hsecond.
  unfold session, Store.get_user, Store.set_id, bind, get, put, throw, ret.
  simpl. rewrite Hsecond.
  destruct (Store.sessions h !! l) as [o|] eqn:Ho; simpl;
    [|by rewrite ?Ho].
  destruct (Store.user o) as [lu|] eqn:Hlu; simpl;
    [|by rewrite ?Ho, ?Hlu].
  destruct (Js.truthy (JWT.sub first)); simpl;
    [|by rewrite ?Ho, ?Hlu].
  destruct (Store.users h !! lu) as [u|] eqn:Hu; simpl.
  - rewrite ?Ho, ?Hlu. simpl. rewrite lookup_insert_eq. simpl.
    by rewrite insert_insert_eq, with_id_twice.
  - by rewrite ?Ho, ?Hlu, ?Hu.
Qed.

Lemma session_last_token_wins_witness :
  session (Sample.params (Some "7"))
    (snd (session (Sample.params (Some "42")) Sample.store))
  = session (Sample.params (Some "7")) Sample.store.
Proof.
  apply (session_last_token_wins 1%positive (Sample.token (Some "42"))
           (Sample.token (Some "7")) Sample.store).
  reflexivity.
Defined.
